(** * serve.py: a static file server for local development

    A shallow embedding of [serve.py] and of the parts of the Python
    standard library it drives (sockets, [os.path], [socketserver],
    [http.server]; CPython 3.11 on POSIX), with the properties of the port
    selection, of the start-up and shutdown sequence and of the request
    handler.

    Python code that raises, mutates the operating system's state or may
    never return is written in a state-and-exception monad [M] over a
    [world]: the file system, the table of bound ports, the sockets of
    the process, its two output streams and a log of the socket calls.

    What the model leaves out: other processes do not bind or release
    ports while the program runs, and the process may bind any port that
    is not bound; the file system has files and directories, without
    symbolic links or permissions, and does not change; the requests of
    the clients are answered one by one by a function of the request. *)

From Stdlib Require Import ZArith Lia Ascii String.
From stdpp Require Import gmap strings list pretty.

Local Open Scope Z_scope.
Local Open Scope string_scope.

(** * Strings, as [str] methods use them *)

Module Str.

(** [s.startswith(p)] *)
Fixpoint startswith (p s : string) : bool :=
  match p, s with
  | EmptyString, _ => true
  | String a p', String b s' => Ascii.eqb a b && startswith p' s'
  | String _ _, EmptyString => false
  end.

Fixpoint endswith_char (c : ascii) (s : string) : bool :=
  match s with
  | EmptyString => false
  | String a EmptyString => Ascii.eqb a c
  | String _ r => endswith_char c r
  end.

Fixpoint contains_char (c : ascii) (s : string) : bool :=
  match s with
  | EmptyString => false
  | String a r => Ascii.eqb a c || contains_char c r
  end.

(** [s.split(c)]: the pieces between the occurrences of [c]; never empty. *)
Fixpoint split (c : ascii) (s : string) : list string :=
  match s with
  | EmptyString => [EmptyString]
  | String a r =>
      if Ascii.eqb a c then EmptyString :: split c r
      else match split c r with
           | w :: ws => String a w :: ws
           | [] => [String a EmptyString]
           end
  end.

(** [s.split(c, 1)[0]]: what precedes the first [c], all of [s] without one. *)
Fixpoint before (c : ascii) (s : string) : string :=
  match s with
  | EmptyString => EmptyString
  | String a r => if Ascii.eqb a c then EmptyString else String a (before c r)
  end.

(** [sep.join(l)] *)
Fixpoint join (sep : string) (l : list string) : string :=
  match l with
  | [] => ""
  | [w] => w
  | w :: ws => w +:+ sep +:+ join sep ws
  end.

(** [sep * n] *)
Fixpoint times (sep : string) (n : nat) : string :=
  match n with
  | O => ""
  | S k => sep +:+ times sep k
  end.

(** The characters [str.isspace] accepts among the first 256 code points. *)
Definition isspace (a : ascii) : bool :=
  let n := nat_of_ascii a in
  ((9 <=? n) && (n <=? 13) || (28 <=? n) && (n <=? 32)
   || (n =? 133) || (n =? 160))%nat.

(** [s.rstrip()] *)
Fixpoint rstrip (s : string) : string :=
  match s with
  | EmptyString => EmptyString
  | String a r =>
      match rstrip r with
      | EmptyString => if isspace a then EmptyString else String a EmptyString
      | r' => String a r'
      end
  end.

(** [s.rstrip(c)] for a single character [c] *)
Fixpoint rstrip_char (c : ascii) (s : string) : string :=
  match s with
  | EmptyString => EmptyString
  | String a r =>
      match rstrip_char c r with
      | EmptyString => if Ascii.eqb a c then EmptyString else String a EmptyString
      | r' => String a r'
      end
  end.

End Str.

(** * [posixpath]

    [join], [normpath], [abspath] and [dirname] of [Lib/posixpath.py]. *)

Module PosixPath.

Definition sep : string := "/".
Definition curdir : string := ".".
Definition pardir : string := "..".

Definition isabs (s : string) : bool := Str.startswith sep s.

(** [posixpath.join(a, b)] *)
Definition join (a b : string) : string :=
  if Str.startswith sep b then b
  else if String.eqb a "" || Str.endswith_char "/" a then a +:+ b
  else a +:+ sep +:+ b.

Definition is_nil {A} (l : list A) : bool :=
  match l with [] => true | _ => false end.

(** One round of the loop of [normpath] over the components. *)
Definition normpath_step (initial_slashes : nat) (new_comps : list string)
    (comp : string) : list string :=
  if String.eqb comp "" || String.eqb comp curdir then new_comps
  else if negb (String.eqb comp pardir)
          || (Nat.eqb initial_slashes 0 && is_nil new_comps)
          || (negb (is_nil new_comps)
              && String.eqb (List.last new_comps "") pardir)
       then new_comps ++ [comp]
  else if negb (is_nil new_comps) then removelast new_comps
  else new_comps.

(** [posixpath.normpath] *)
Definition normpath (path : string) : string :=
  if String.eqb path "" then curdir
  else
    let initial_slashes : nat :=
      if Str.startswith sep path then
        if Str.startswith "//" path && negb (Str.startswith "///" path)
        then 2%nat else 1%nat
      else 0%nat in
    let comps := fold_left (normpath_step initial_slashes)
                           (Str.split "/" path) [] in
    let path := Str.join sep comps in
    let path := if Nat.eqb initial_slashes 0 then path
                else Str.times sep initial_slashes +:+ path in
    if String.eqb path "" then curdir else path.

(** [posixpath.abspath], the working directory being [cwd] *)
Definition abspath (cwd path : string) : string :=
  normpath (if isabs path then path else join cwd path).

(** [posixpath.dirname]: [p] up to its last separator, the trailing
    separators dropped unless nothing else is left. *)
Definition dirname (p : string) : string :=
  let comps := Str.split "/" p in
  match comps with
  | [] | [_] => ""
  | _ =>
      let head := Str.join sep (removelast comps) +:+ sep in
      if String.eqb (Str.rstrip_char "/" head) "" then head
      else Str.rstrip_char "/" head
  end.

End PosixPath.

(** * Exceptions and the monad of Python code *)

(** The [errno] values the socket calls of the model fail with. *)
Inductive errno := EADDRINUSE | EINVAL | EBADF.

(** The exception classes the program can meet. [OSError] stands for the
    class and its subclasses; [KeyboardInterrupt] and [SystemExit] derive
    from [BaseException]; [PyException] is any other exception, by name. *)
Inductive exn :=
| OSError (e : errno)
| OverflowError
| KeyboardInterrupt
| SystemExit (code : Z)
| PyException (name : string).

(** [except OSError] *)
Definition is_OSError (e : exn) : bool :=
  match e with OSError _ => true | _ => false end.

(** [except KeyboardInterrupt] *)
Definition is_KeyboardInterrupt (e : exn) : bool :=
  match e with KeyboardInterrupt => true | _ => false end.

(** What running a piece of code comes to: a value, an exception on its way
    up, or no end at all. *)
Inductive outcome (A : Type) :=
| Ret (a : A)
| Raise (e : exn)
| Diverge.
Arguments Ret {A} a.
Arguments Raise {A} e.
Arguments Diverge {A}.

(** The file system, as [stat] sees a path. *)
Inductive node :=
| File (content : string)
| Dir (entries : list string).

(** A socket of the process. *)
Inductive sockstate :=
| Unbound
| Bound (port : Z)
| Listening (port : Z).

(** The calls on sockets, in the order they are made; [CallBind] records
    whether the bind succeeded. *)
Inductive call :=
| CallSocket (fd : nat)
| CallBind (fd : nat) (port : Z) (ok : bool)
| CallListen (fd : nat) (ok : bool)
| CallClose (fd : nat).

(** How [serve_forever] ends: never, with an exception (the interrupt of
    Ctrl+C is [KeyboardInterrupt]), or by returning, as it does after
    [shutdown()]. *)
Inductive serve_end :=
| ServesForever
| ServeRaises (e : exn)
| ServeReturns.

(** The state the program runs in.
    - [w_cwd], [w_stat]: the working directory and the file system;
    - [w_bound]: the ports bound on 127.0.0.1, by this process or another;
    - [w_ephemeral]: the ports the system tries, in this order, for a bind
      to port 0;
    - [w_socks]: the sockets the process holds;
    - [w_calls]: the socket calls made so far;
    - [w_stdout], [w_stderr]: what was printed, one entry per [print];
    - [w_serving]: how the serving phase will end. *)
Record world := World {
  w_cwd : string;
  w_stat : string -> option node;
  w_bound : gset Z;
  w_ephemeral : list Z;
  w_socks : gmap nat sockstate;
  w_calls : list call;
  w_stdout : list string;
  w_stderr : list string;
  w_serving : serve_end
}.

Definition set_net (bound : gset Z) (socks : gmap nat sockstate) (w : world) : world :=
  World (w_cwd w) (w_stat w) bound (w_ephemeral w) socks
        (w_calls w) (w_stdout w) (w_stderr w) (w_serving w).

Definition log_calls (cs : list call) (w : world) : world :=
  World (w_cwd w) (w_stat w) (w_bound w) (w_ephemeral w)
        (w_socks w) (w_calls w ++ cs) (w_stdout w) (w_stderr w) (w_serving w).

Definition log_call (c : call) (w : world) : world := log_calls [c] w.

Definition add_stdout (s : string) (w : world) : world :=
  World (w_cwd w) (w_stat w) (w_bound w) (w_ephemeral w)
        (w_socks w) (w_calls w) (w_stdout w ++ [s]) (w_stderr w) (w_serving w).

Definition add_stderr (s : string) (w : world) : world :=
  World (w_cwd w) (w_stat w) (w_bound w) (w_ephemeral w)
        (w_socks w) (w_calls w) (w_stdout w) (w_stderr w ++ [s]) (w_serving w).

Definition M (A : Type) : Type := world -> outcome A * world.

Definition ret {A} (a : A) : M A := fun w => (Ret a, w).

Definition raise {A} (e : exn) : M A := fun w => (Raise e, w).

Definition bind {A B} (m : M A) (k : A -> M B) : M B := fun w =>
  match m w with
  | (Ret a, w') => k a w'
  | (Raise e, w') => (Raise e, w')
  | (Diverge, w') => (Diverge, w')
  end.

Declare Scope py_scope.
Delimit Scope py_scope with py.
Notation "x <- m ;; k" := (bind m (fun x => k))
  (at level 100, m at next level, right associativity) : py_scope.
Notation "m ;; k" := (bind m (fun _ => k))
  (at level 100, right associativity) : py_scope.
Local Open Scope py_scope.

(** [try: body / except E: handler], [catches] telling the exceptions of
    class [E]. *)
Definition try_except {A} (body : M A) (catches : exn -> bool) (handler : M A) : M A :=
  fun w =>
    match body w with
    | (Raise e, w') => if catches e then handler w' else (Raise e, w')
    | r => r
    end.

(** [try: body / finally: fin]. The clean-up runs when the body returns and
    when it raises, and an exception of the clean-up replaces the one on its
    way; it does not run while the body has not ended. *)
Definition try_finally {A} (body : M A) (fin : M unit) : M A := fun w =>
  match body w with
  | (Ret a, w') =>
      match fin w' with
      | (Ret _, w'') => (Ret a, w'')
      | (Raise e, w'') => (Raise e, w'')
      | (Diverge, w'') => (Diverge, w'')
      end
  | (Raise e, w') =>
      match fin w' with
      | (Ret _, w'') => (Raise e, w'')
      | (Raise e', w'') => (Raise e', w'')
      | (Diverge, w'') => (Diverge, w'')
      end
  | (Diverge, w') => (Diverge, w')
  end.

(** * Sockets *)

Module Socket.

(** The port numbers [bind] accepts. *)
Definition port_in_range (p : Z) : bool := ((0 <=? p) && (p <=? 65535))%Z.

(** The port the system gives to a bind to port 0: the first it tries
    that is a port number and is not bound. *)
Definition assign_ephemeral (w : world) : option Z :=
  head (filter (fun p => 1 <= p <= 65535 /\ p ∉ w_bound w) (w_ephemeral w)).

(** The port a bind to [port] gets, if any: for port 0 the ephemeral
    port the system assigns, else [port] itself unless it is bound. *)
Definition grant (w : world) (port : Z) : option Z :=
  if decide (port = 0) then assign_ephemeral w
  else if decide (port ∈ w_bound w) then None
  else Some port.

(** [socket.socket(AF_INET, SOCK_STREAM)]; the value is the descriptor. *)
Definition socket : M nat := fun w =>
  let fd := fresh (dom (w_socks w)) in
  (Ret fd, log_call (CallSocket fd)
             (set_net (w_bound w) (<[fd := Unbound]> (w_socks w)) w)).

(** [s.bind(("127.0.0.1", port))]. A port outside 0..65535 is refused
    with [OverflowError] before the system is asked; a bound port, or
    port 0 when no ephemeral port is left, is [EADDRINUSE]. *)
Definition bind (fd : nat) (port : Z) : M unit := fun w =>
  if negb (port_in_range port) then
    (Raise OverflowError, log_call (CallBind fd port false) w)
  else
    match w_socks w !! fd with
    | None => (Raise (OSError EBADF), log_call (CallBind fd port false) w)
    | Some Unbound =>
        match grant w port with
        | Some q =>
            (Ret tt, log_call (CallBind fd port true)
                       (set_net ({[q]} ∪ w_bound w)
                                (<[fd := Bound q]> (w_socks w)) w))
        | None =>
            (Raise (OSError EADDRINUSE), log_call (CallBind fd port false) w)
        end
    | Some _ => (Raise (OSError EINVAL), log_call (CallBind fd port false) w)
    end.

(** [s.getsockname()]: the address and the port the socket is bound to. *)
Definition getsockname (fd : nat) : M (string * Z) := fun w =>
  match w_socks w !! fd with
  | None => (Raise (OSError EBADF), w)
  | Some Unbound => (Ret ("0.0.0.0", 0), w)
  | Some (Bound p) | Some (Listening p) => (Ret ("127.0.0.1", p), w)
  end.

(** [s.listen(n)]; an unbound socket is first given an ephemeral port. *)
Definition listen (fd : nat) : M unit := fun w =>
  match w_socks w !! fd with
  | None => (Raise (OSError EBADF), log_call (CallListen fd false) w)
  | Some Unbound =>
      match assign_ephemeral w with
      | Some q =>
          (Ret tt, log_call (CallListen fd true)
                     (set_net ({[q]} ∪ w_bound w)
                              (<[fd := Listening q]> (w_socks w)) w))
      | None => (Raise (OSError EADDRINUSE), log_call (CallListen fd false) w)
      end
  | Some (Bound p) | Some (Listening p) =>
      (Ret tt, log_call (CallListen fd true)
                 (set_net (w_bound w) (<[fd := Listening p]> (w_socks w)) w))
  end.

(** [s.close()]: the descriptor is given back and, with it, the port;
    closing a closed socket does nothing. *)
Definition close (fd : nat) : M unit := fun w =>
  match w_socks w !! fd with
  | None => (Ret tt, log_call (CallClose fd) w)
  | Some Unbound =>
      (Ret tt, log_call (CallClose fd)
                 (set_net (w_bound w) (delete fd (w_socks w)) w))
  | Some (Bound p) | Some (Listening p) =>
      (Ret tt, log_call (CallClose fd)
                 (set_net (w_bound w ∖ {[p]}) (delete fd (w_socks w)) w))
  end.

End Socket.

(** [with contextlib.closing(make) as s: body]: [s.close()] runs however
    the body ends. *)
Definition with_closing {A} (make : M nat) (body : nat -> M A) : M A :=
  s <- make ;; try_finally (body s) (Socket.close s).

(** * serve.py *)

(** [find_free_port(preferred)], lines 20 to 27: the probe socket is made
    and closed by [contextlib.closing]; the first bind is tried and, on
    [OSError], port 0 is bound and the port read back. *)
Definition find_free_port (preferred : Z) : M Z :=
  with_closing Socket.socket (fun s =>
    try_except
      (Socket.bind s preferred ;; ret preferred)
      is_OSError
      (Socket.bind s 0 ;;
       name <- Socket.getsockname s ;;
       ret (snd name))).

(** [sys.exit(code)] *)
Definition sys_exit (code : Z) : M unit := raise (SystemExit code).

(** [print(s)] and [print(s, file=sys.stderr)] *)
Definition print (s : string) : M unit := fun w => (Ret tt, add_stdout s w).
Definition print_stderr (s : string) : M unit := fun w => (Ret tt, add_stderr s w).

(** [os.path.abspath] and [os.path.isdir] *)
Definition os_path_abspath (path : string) : M string := fun w =>
  (Ret (PosixPath.abspath (w_cwd w) path), w).

Definition isdir (stat : string -> option node) (path : string) : bool :=
  match stat path with Some (Dir _) => true | _ => false end.

Definition os_path_isdir (path : string) : M bool := fun w =>
  (Ret (isdir (w_stat w) path), w).

(** ** The server object

    [ThreadingHTTPServer(("127.0.0.1", port), handler_cls)], where
    [handler_cls] is [SimpleHTTPRequestHandler] with [directory] fixed:
    the constructor of [socketserver.TCPServer] makes the socket, binds it,
    reads the port back with [getsockname] and listens; should one of the
    steps raise, it closes the socket and raises again. *)
Record httpd := Httpd {
  srv_socket : nat;
  srv_port : Z;
  srv_directory : string
}.

(** [try: body / except: cleanup; raise] *)
Definition or_cleanup {A} (body : M A) (cleanup : M unit) : M A := fun w =>
  match body w with
  | (Raise e, w') => (cleanup ;; raise e) w'
  | r => r
  end.

Definition ThreadingHTTPServer (port : Z) (directory : string) : M httpd :=
  s <- Socket.socket ;;
  or_cleanup
    (Socket.bind s port ;;
     name <- Socket.getsockname s ;;
     Socket.listen s ;;
     ret (Httpd s (snd name) directory))
    (Socket.close s).

(** [httpd.server_close()] *)
Definition server_close (h : httpd) : M unit := Socket.close (srv_socket h).

(** [httpd.serve_forever()]: the loop ends as the world has it. *)
Definition serve_forever (h : httpd) : M unit := fun w =>
  match w_serving w with
  | ServesForever => (Diverge, w)
  | ServeRaises e => (Raise e, w)
  | ServeReturns => (Ret tt, w)
  end.

(** The command line, as [argparse] hands it over. *)
Record args := Args {
  arg_port : Z;
  arg_dir : string
}.

Definition newline : string := String (ascii_of_nat 10) "".

(** What [main] prints when it is interrupted. *)
Definition shutdown_message : string := newline +:+ "Shutting down...".

(** The line that announces the server. *)
Definition announcement (serve_dir : string) (port : Z) : string :=
  "Serving '" +:+ serve_dir +:+ "' at http://127.0.0.1:" +:+ pretty port.

(** [main()], lines 41 to 60, from the parsed arguments on. The port
    announced is the value of [find_free_port], as line 52 has it. *)
Definition main (a : args) : M unit :=
  serve_dir <- os_path_abspath (arg_dir a) ;;
  is_dir <- os_path_isdir serve_dir ;;
  (if negb is_dir then
     print_stderr ("Error: directory not found: " +:+ serve_dir) ;;
     sys_exit 1
   else ret tt) ;;
  port <- find_free_port (arg_port a) ;;
  httpd <- ThreadingHTTPServer port serve_dir ;;
  print (announcement serve_dir port) ;;
  print "Press Ctrl+C to stop." ;;
  try_finally
    (try_except (serve_forever httpd)
                is_KeyboardInterrupt
                (print shutdown_message))
    (server_close httpd).

(** The two phases of [main]: the start, up to the announcement, whose
    value is the server; and the [try] statement, which serves. *)
Definition startup (a : args) : M httpd :=
  serve_dir <- os_path_abspath (arg_dir a) ;;
  is_dir <- os_path_isdir serve_dir ;;
  (if negb is_dir then
     print_stderr ("Error: directory not found: " +:+ serve_dir) ;;
     sys_exit 1
   else ret tt) ;;
  port <- find_free_port (arg_port a) ;;
  httpd <- ThreadingHTTPServer port serve_dir ;;
  print (announcement serve_dir port) ;;
  print "Press Ctrl+C to stop." ;;
  ret httpd.

Definition serving (h : httpd) : M unit :=
  try_finally
    (try_except (serve_forever h)
                is_KeyboardInterrupt
                (print shutdown_message))
    (server_close h).

(** The exit status of the interpreter after [main()]: 0 when it returns,
    the code of [sys.exit], 130 for an interrupt nobody caught, 1 for any
    other exception; none while the program runs. *)
Definition exit_status {A} (o : outcome A) : option Z :=
  match o with
  | Ret _ => Some 0
  | Raise (SystemExit code) => Some code
  | Raise KeyboardInterrupt => Some 130
  | Raise _ => Some 1
  | Diverge => None
  end.

(** * The request handler

    [SimpleHTTPRequestHandler] of [Lib/http/server.py], which [main] hands
    to the server with [directory=serve_dir] (lines 49 and 50). A request
    is taken after [parse_request]: the command and the path of the
    request line, and of the headers the two that decide a conditional
    GET. *)

Module Handler.

Record request := Request {
  rq_command : string;
  rq_path : string;
  (** [If-Modified-Since], when present and well formed, in seconds *)
  rq_if_modified_since : option Z;
  (** whether [If-None-Match] is present *)
  rq_if_none_match : bool
}.

(** What the body of a response is made of. *)
Inductive body :=
| NoBody
| ErrorPage
| FileContent (path : string) (content : string)
| Listing (path : string) (entries : list string).

Record response := Response {
  rs_status : Z;
  rs_body : body
}.

(** [send_error(code)]: an explanatory page, which HEAD leaves out. *)
Definition send_error (command : string) (code : Z) : response :=
  Response code (if String.eqb command "HEAD" then NoBody else ErrorPage).

Section WithUrllib.

(** Two functions of [urllib.parse] enter as they are: what [unquote]
    makes of a string that has percent escapes, and the [path] field
    of [urlsplit]. *)
Variable unquote_escapes : string -> string.
Variable urlsplit_path : string -> string.

(** The file system and the directory served. The modification time
    of a file is taken from [mtime]. *)
Variable stat : string -> option node.
Variable mtime : string -> Z.
Variable directory : string.

(** [urllib.parse.unquote]: a string without [%] is returned as it is. *)
Definition unquote (s : string) : string :=
  if Str.contains_char "%" s then unquote_escapes s else s.

(** The loop of [translate_path]: a word that is not a plain name is
    skipped, another is joined to the path. *)
Definition translate_step (path word : string) : string :=
  if negb (String.eqb (PosixPath.dirname word) "")
     || String.eqb word PosixPath.curdir
     || String.eqb word PosixPath.pardir
  then path
  else PosixPath.join path word.

(** [filter(None, words)] *)
Definition nonempty (l : list string) : list string :=
  List.filter (fun w => negb (String.eqb w "")) l.

(** [translate_path(path)] *)
Definition translate_path (path : string) : string :=
  let path := Str.before "?" path in
  let path := Str.before "#" path in
  let trailing_slash := Str.endswith_char "/" (Str.rstrip path) in
  let path := unquote path in
  let path := PosixPath.normpath path in
  let words := nonempty (Str.split "/" path) in
  let path := fold_left translate_step words directory in
  if trailing_slash then path +:+ "/" else path.

Definition isfile (path : string) : bool :=
  match stat path with Some (File _) => true | _ => false end.

(** [open(path, 'rb')]: the content, or nothing for [OSError]. *)
Definition open_rb (path : string) : option string :=
  match stat path with Some (File c) => Some c | _ => None end.

(** [os.listdir(path)] *)
Definition listdir (path : string) : option (list string) :=
  match stat path with Some (Dir l) => Some l | _ => None end.

(** [list_directory(path)] *)
Definition list_directory (command path : string) : response :=
  match listdir path with
  | None => send_error command 404
  | Some l => Response 200 (Listing path l)
  end.

(** The second half of [send_head], from the test of the trailing
    slash on: the file is opened and sent, unless the client has it. *)
Definition send_file (rq : request) (path : string) : response :=
  if Str.endswith_char "/" path then send_error (rq_command rq) 404
  else
    match open_rb path with
    | None => send_error (rq_command rq) 404
    | Some content =>
        match rq_if_modified_since rq with
        | Some ims =>
            if negb (rq_if_none_match rq) && (mtime path <=? ims)%Z
            then Response 304 NoBody
            else Response 200 (FileContent path content)
        | None => Response 200 (FileContent path content)
        end
    end.

(** [send_head()] *)
Definition send_head (rq : request) : response :=
  let path := translate_path (rq_path rq) in
  if isdir stat path then
    if negb (Str.endswith_char "/" (urlsplit_path (rq_path rq))) then
      Response 301 NoBody
    else if isfile (PosixPath.join path "index.html") then
      send_file rq (PosixPath.join path "index.html")
    else if isfile (PosixPath.join path "index.htm") then
      send_file rq (PosixPath.join path "index.htm")
    else list_directory (rq_command rq) path
  else send_file rq path.

(** [do_GET()] copies the file [send_head] opened. *)
Definition do_GET (rq : request) : response := send_head rq.

(** [do_HEAD()] closes it. *)
Definition do_HEAD (rq : request) : response :=
  Response (rs_status (send_head rq)) NoBody.

(** The end of [handle_one_request]: the method [do_] + command is
    called, and a command without one is answered 501. *)
Definition handle_one_request (rq : request) : response :=
  if String.eqb (rq_command rq) "GET" then do_GET rq
  else if String.eqb (rq_command rq) "HEAD" then do_HEAD rq
  else send_error (rq_command rq) 501.

End WithUrllib.


(** A plain name: not empty, neither [.] nor [..], without a separator. *)
Definition plain_name (w : string) : Prop :=
  w <> "" /\ w <> "." /\ w <> ".." /\ Str.contains_char "/" w = false.




End Handler.

(** The response of the server [h] to a request, in the world [w]: the
    handler class [main] gives the server is [SimpleHTTPRequestHandler]
    with [directory] fixed to the directory of [h]. *)
Definition respond (unquote_escapes urlsplit_path : string -> string)
    (mtime : string -> Z) (h : httpd) (w : world) (rq : Handler.request)
    : Handler.response :=
  Handler.handle_one_request unquote_escapes urlsplit_path (w_stat w) mtime
                             (srv_directory h) rq.

(** * The vocabulary of the properties *)

(** The descriptor the next [socket.socket()] returns in [w]. *)
Definition next_socket (w : world) : nat := fresh (dom (w_socks w)).

(** The socket calls made between [w] and [w']. *)
Definition new_calls (w w' : world) : list call :=
  drop (length (w_calls w)) (w_calls w').

Definition is_bind (c : call) : bool :=
  match c with CallBind _ _ _ => true | _ => false end.

(** A port number that nobody has bound, and one that somebody has. *)
Definition port_free (w : world) (p : Z) : Prop :=
  1 <= p <= 65535 /\ (p ∉ w_bound w).


(** The directory [main] serves: [--dir], made absolute. *)
Definition serve_dir_of (a : args) (w : world) : string :=
  PosixPath.abspath (w_cwd w) (arg_dir a).

(** [path] does not exist or is not a directory. *)
Definition not_a_directory (w : world) (path : string) : Prop :=
  w_stat w path = None \/ exists c, w_stat w path = Some (File c).

(** The calls of [find_free_port] when the first bind decides, those when
    it falls back to port 0, and those of the constructor of the server. *)
Definition probe_calls (fd : nat) (preferred : Z) (ok : bool) : list call :=
  [CallSocket fd; CallBind fd preferred ok; CallClose fd].

Definition fallback_calls (fd : nat) (preferred : Z) (ok : bool) : list call :=
  [CallSocket fd; CallBind fd preferred false; CallBind fd 0 ok; CallClose fd].

Definition server_calls (fd : nat) (port : Z) : list call :=
  [CallSocket fd; CallBind fd port true; CallListen fd true].

(** The world once the server of [main] listens on [q], after the socket
    calls [cs] and the announcement of the port [announced]. *)
Definition started (w : world) (cs : list call) (q : Z) (dir : string)
    (announced : Z) : world :=
  World (w_cwd w) (w_stat w) ({[q]} ∪ w_bound w) (w_ephemeral w)
        (<[next_socket w := Listening q]> (w_socks w)) (w_calls w ++ cs)
        (w_stdout w ++ [announcement dir announced; "Press Ctrl+C to stop."])
        (w_stderr w) (w_serving w).

(** ** A machine to run the program on

    A site in [/home/u/site] with a page and a directory [etc]; a file
    [/etc/passwd] outside of it; port 8000 taken by another process. *)
Fixpoint lookup_path (l : list (string * node)) (p : string) : option node :=
  match l with
  | [] => None
  | (q, n) :: r => if String.eqb p q then Some n else lookup_path r p
  end.

Definition demo_files : list (string * node) :=
  [ ("/home/u/site", Dir ["etc"; "index.html"]);
    ("/home/u/site/index.html", File "<h1>hi</h1>");
    ("/home/u/site/etc", Dir ["passwd"]);
    ("/home/u/site/etc/passwd", File "demo:x:1000:1000::/home/demo:/bin/sh");
    ("/etc/passwd", File "root:x:0:0:root:/root:/bin/sh") ].

Definition demo_stat : string -> option node := lookup_path demo_files.

Definition demo_world (serving : serve_end) : world :=
  World "/home/u/site" demo_stat {[8000]} [8000; 49152; 49153] ∅ [] [] []
        serving.

(** The same machine with every ephemeral port taken. *)
Definition full_world : world :=
  World "/home/u/site" demo_stat {[8000; 49152]} [8000; 49152] ∅ [] [] []
        ServesForever.

(** ** More vocabulary *)

(** The request [rq] with another command. *)
Definition with_command (command : string) (rq : Handler.request)
    : Handler.request :=
  Handler.Request command (Handler.rq_path rq)
                  (Handler.rq_if_modified_since rq)
                  (Handler.rq_if_none_match rq).

(** A name without the characters that end the path of a URL or start an
    escape. *)
Definition no_url_syntax (n : string) : Prop :=
  Str.contains_char "?" n = false /\ Str.contains_char "#" n = false
  /\ Str.contains_char "%" n = false.

(** The files of a machine, with a path that ends in separators resolved
    as the system does: to the directory of that name, never to a file. *)
Definition resolve (files : list (string * node)) (p : string) : option node :=
  match lookup_path files (Str.rstrip_char "/" p) with
  | Some (Dir l) => Some (Dir l)
  | Some (File c) => if Str.endswith_char "/" p then None else Some (File c)
  | None => None
  end.

Definition slash_world : world :=
  World "/home/u/site" (resolve demo_files) {[8000]} [8000; 49152; 49153] ∅
        [] [] [] ServesForever.

(** A server of the site. *)
Definition demo_server : httpd := Httpd 0 49152 "/home/u/site".

(** * Proofs *)

(** Two worlds with the same fields are the same world. *)
Lemma world_ext (w1 w2 : world) :
  w_cwd w1 = w_cwd w2 -> w_stat w1 = w_stat w2 -> w_bound w1 = w_bound w2 ->
  w_ephemeral w1 = w_ephemeral w2 -> w_socks w1 = w_socks w2 ->
  w_calls w1 = w_calls w2 -> w_stdout w1 = w_stdout w2 ->
  w_stderr w1 = w_stderr w2 -> w_serving w1 = w_serving w2 -> w1 = w2.
Proof. destruct w1, w2; cbn; congruence. Qed.

Ltac same_world :=
  apply world_ext;
  cbn [w_cwd w_stat w_bound w_ephemeral w_socks w_calls w_stdout w_stderr
       w_serving log_call log_calls set_net add_stdout add_stderr started];
  try reflexivity;
  rewrite <- ?app_assoc; try reflexivity.

(** ** Sockets *)

Section SocketFacts.

Lemma next_socket_is_new w : w_socks w !! next_socket w = None.
Proof. unfold next_socket. apply not_elem_of_dom, is_fresh. Qed.

Lemma opened_then_closed (m : gmap nat sockstate) fd s :
  m !! fd = None -> delete fd (<[fd := s]> m) = m.
Proof. intros H. rewrite delete_insert_eq. by apply delete_id. Qed.

Lemma rebound_then_closed (m : gmap nat sockstate) fd s s' :
  m !! fd = None -> delete fd (<[fd := s]> (<[fd := s']> m)) = m.
Proof. intros H. rewrite !delete_insert_eq. by apply delete_id. Qed.

Lemma bound_then_released (B : gset Z) q : q ∉ B -> ({[q]} ∪ B) ∖ {[q]} = B.
Proof.
  intros H. apply set_eq. intros x.
  rewrite elem_of_difference, elem_of_union, elem_of_singleton.
  split; [tauto|]. intros Hx. split; [tauto|]. by intros ->.
Qed.

Lemma new_calls_log cs w : new_calls w (log_calls cs w) = cs.
Proof. unfold new_calls. cbn. by rewrite drop_app_length. Qed.

Lemma in_range_true p : 0 <= p <= 65535 -> Socket.port_in_range p = true.
Proof. unfold Socket.port_in_range. lia. Qed.

(** An ephemeral port is a port number that was not bound. *)
Lemma assign_ephemeral_Some w q :
  Socket.assign_ephemeral w = Some q -> 1 <= q <= 65535 /\ (q ∉ w_bound w).
Proof.
  unfold Socket.assign_ephemeral. intros H.
  apply head_Some_elem_of in H. apply list_elem_of_filter in H. tauto.
Qed.

Lemma assign_ephemeral_ext w w' :
  w_bound w' = w_bound w -> w_ephemeral w' = w_ephemeral w ->
  Socket.assign_ephemeral w' = Socket.assign_ephemeral w.
Proof. unfold Socket.assign_ephemeral. by intros -> ->. Qed.

Lemma grant_ext w w' p :
  w_bound w' = w_bound w -> w_ephemeral w' = w_ephemeral w ->
  Socket.grant w' p = Socket.grant w p.
Proof.
  intros Hb He. unfold Socket.grant.
  by rewrite (assign_ephemeral_ext w w'), Hb.
Qed.

Lemma grant_0 w : Socket.grant w 0 = Socket.assign_ephemeral w.
Proof. reflexivity. Qed.

Lemma grant_Some w p q :
  Socket.grant w p = Some q -> (q ∉ w_bound w) /\ (p = 0 \/ p = q).
Proof.
  unfold Socket.grant. intros Hg. repeat case_decide; simplify_eq.
  - apply assign_ephemeral_Some in Hg. tauto.
  - tauto.
Qed.

Lemma grant_free w p : port_free w p -> Socket.grant w p = Some p.
Proof.
  intros [Hr Hf]. unfold Socket.grant.
  destruct (decide (p = 0)) as [->|_]; [lia|].
  by destruct (decide (p ∈ w_bound w)).
Qed.


Lemma socket_run w :
  Socket.socket w =
    (Ret (next_socket w),
     log_call (CallSocket (next_socket w))
       (set_net (w_bound w) (<[next_socket w := Unbound]> (w_socks w)) w)).
Proof. reflexivity. Qed.

(** All that [find_free_port] can do, by the answer of the system to the
    two binds. The world it leaves differs from [w] by the calls only. *)
Lemma find_free_port_run preferred w :
  find_free_port preferred w =
    if negb (Socket.port_in_range preferred) then
      (Raise OverflowError, log_calls (probe_calls (next_socket w) preferred false) w)
    else match Socket.grant w preferred with
         | Some _ =>
             (Ret preferred,
              log_calls (probe_calls (next_socket w) preferred true) w)
         | None =>
             match Socket.assign_ephemeral w with
             | Some q =>
                 (Ret q, log_calls (fallback_calls (next_socket w) preferred true) w)
             | None =>
                 (Raise (OSError EADDRINUSE),
                  log_calls (fallback_calls (next_socket w) preferred false) w)
             end
         end.
Proof.
  pose proof (next_socket_is_new w) as Hfd.
  unfold find_free_port, with_closing, bind. rewrite socket_run.
  unfold probe_calls, fallback_calls.
  generalize dependent (next_socket w). intros fd Hfd.
  unfold try_finally, try_except, bind, Socket.bind.
  cbn [w_socks log_call log_calls set_net].
  rewrite lookup_insert_eq.
  destruct (negb (Socket.port_in_range preferred)) eqn:Hr.
  - unfold Socket.close. cbn. rewrite lookup_insert_eq. cbn.
    f_equal. same_world. by apply opened_then_closed.
  - rewrite (grant_ext w) by reflexivity.
    destruct (Socket.grant w preferred) as [q|] eqn:Hg.
    + apply grant_Some in Hg as [Hq _].
      cbn. unfold Socket.close. cbn. rewrite lookup_insert_eq. cbn.
      f_equal. same_world.
      * by apply bound_then_released.
      * by apply rebound_then_closed.
    + cbn. rewrite lookup_insert_eq.
      rewrite (grant_ext w), grant_0 by reflexivity.
      destruct (Socket.assign_ephemeral w) as [q|] eqn:He.
      * apply assign_ephemeral_Some in He as [_ Hq].
        cbn. unfold Socket.getsockname, Socket.close. cbn.
        rewrite !lookup_insert_eq. cbn. rewrite lookup_insert_eq. cbn.
        f_equal. same_world.
        -- by apply bound_then_released.
        -- by apply rebound_then_closed.
      * cbn. unfold Socket.close. cbn. rewrite lookup_insert_eq. cbn.
        f_equal. same_world. by apply opened_then_closed.
Qed.

(** The first bind of [find_free_port] raises an [OSError] only for a port
    in range that the system does not grant. *)
Lemma first_bind_OSError preferred w e w1 :
  Socket.bind (next_socket w) preferred (snd (Socket.socket w)) = (Raise e, w1) ->
  is_OSError e = true ->
  Socket.port_in_range preferred = true /\ Socket.grant w preferred = None.
Proof.
  rewrite socket_run. unfold Socket.bind.
  cbn [snd w_socks log_call log_calls set_net].
  rewrite lookup_insert_eq.
  destruct (Socket.port_in_range preferred); cbn [negb].
  - rewrite (grant_ext w) by reflexivity.
    destruct (Socket.grant w preferred); [discriminate|]. done.
  - intros [= <- _]. discriminate.
Qed.

(** The second bind raises only when no ephemeral port is left. *)
Lemma fallback_bind_raises preferred w e w1 e' w2 :
  Socket.bind (next_socket w) preferred (snd (Socket.socket w)) = (Raise e, w1) ->
  Socket.bind (next_socket w) 0 w1 = (Raise e', w2) ->
  Socket.assign_ephemeral w = None /\ e' = OSError EADDRINUSE.
Proof.
  rewrite socket_run. unfold Socket.bind at 1.
  cbn [snd w_socks log_call log_calls set_net]. rewrite lookup_insert_eq.
  assert (Hw1 : forall w0 : world,
             w_socks w0 = <[next_socket w := Unbound]> (w_socks w) ->
             w_bound w0 = w_bound w -> w_ephemeral w0 = w_ephemeral w ->
             Socket.bind (next_socket w) 0 w0 = (Raise e', w2) ->
             Socket.assign_ephemeral w = None /\ e' = OSError EADDRINUSE).
  { intros w0 Hs Hb He. unfold Socket.bind.
    change (negb (Socket.port_in_range 0)) with false. cbv iota.
    rewrite Hs, lookup_insert_eq, (grant_ext w), grant_0 by done.
    destruct (Socket.assign_ephemeral w); [discriminate|].
    by intros [= <- _]. }
  destruct (negb (Socket.port_in_range preferred)).
  - intros [= _ <-]. by apply Hw1.
  - rewrite (grant_ext w) by reflexivity.
    destruct (Socket.grant w preferred); [discriminate|].
    intros [= _ <-]. by apply Hw1.
Qed.

End SocketFacts.

(** ** find_free_port *)



(** C3, as the code has it. When the first bind raises an [OSError], the
    port being in use, [find_free_port] binds port 0 and returns the port
    the system assigns; a preferred port outside 0..65535 makes the first
    bind raise [OverflowError], which is not caught: no second bind is
    made and the exception leaves [find_free_port]. *)
Theorem fallback_only_after_OSError (preferred : Z) (w : world) :
  (forall e w1,
     Socket.bind (next_socket w) preferred (snd (Socket.socket w)) = (Raise e, w1) ->
     is_OSError e = true ->
     (exists ok, new_calls w (snd (find_free_port preferred w))
                 = fallback_calls (next_socket w) preferred ok)
     /\ forall q, Socket.assign_ephemeral w = Some q ->
          fst (find_free_port preferred w) = Ret q)
  /\ (Socket.port_in_range preferred = false ->
      fst (find_free_port preferred w) = Raise OverflowError
      /\ new_calls w (snd (find_free_port preferred w))
         = probe_calls (next_socket w) preferred false).
Proof.
  split.
  - intros e w1 Hb He. destruct (first_bind_OSError _ _ _ _ Hb He) as [Hr Hg].
    rewrite find_free_port_run, Hr, Hg. cbn [negb].
    destruct (Socket.assign_ephemeral w) as [q|]; cbn [fst snd];
      rewrite new_calls_log.
    + split; [by exists true|]. by intros ? [= <-].
    + split; [by exists false|]. done.
  - intros Hr. rewrite find_free_port_run, Hr. cbn [negb fst snd].
    by rewrite new_calls_log.
Qed.

Lemma fallback_only_after_OSError_witness :
  fst (find_free_port 8000 (demo_world ServesForever)) = Ret 49152
  /\ fst (find_free_port (-1) (demo_world ServesForever)) = Raise OverflowError.
Proof.
  split.
  - eapply (proj1 (fallback_only_after_OSError 8000 (demo_world ServesForever))).
    + vm_compute. reflexivity.
    + reflexivity.
    + reflexivity.
  - apply (proj2 (fallback_only_after_OSError (-1) (demo_world ServesForever))).
    reflexivity.
Defined.

(** C3 as stated fails: with port 70000 the first bind fails, the port
    value being invalid, and [find_free_port] raises without a bind to
    port 0. *)
Lemma invalid_port_is_not_retried :
  fst (Socket.bind (next_socket (demo_world ServesForever)) 70000
         (snd (Socket.socket (demo_world ServesForever))))
    = Raise OverflowError
  /\ fst (find_free_port 70000 (demo_world ServesForever)) = Raise OverflowError
  /\ new_calls (demo_world ServesForever)
       (snd (find_free_port 70000 (demo_world ServesForever)))
     = [CallSocket 0; CallBind 0 70000 false; CallClose 0].
Proof. vm_compute. done. Qed.

(** C7. However [find_free_port] ends, the socket it opened has been
    closed: the call that follows the binds is the [close] of the probe,
    and the process holds the sockets and the system the bound ports that
    they held before. *)
Theorem find_free_port_closes_probe (preferred : Z) (w : world) :
  let r := find_free_port preferred w in
  w_socks (snd r) = w_socks w
  /\ w_bound (snd r) = w_bound w
  /\ w_socks (snd r) !! next_socket w = None
  /\ fst r <> Diverge
  /\ exists binds,
       new_calls w (snd r)
         = CallSocket (next_socket w) :: binds ++ [CallClose (next_socket w)]
       /\ forallb is_bind binds = true.
Proof.
  cbv zeta. rewrite find_free_port_run.
  pose proof (next_socket_is_new w) as Hfd.
  destruct (negb (Socket.port_in_range preferred));
    [|destruct (Socket.grant w preferred);
      [|destruct (Socket.assign_ephemeral w)]];
    cbn [fst snd]; rewrite new_calls_log;
    (split; [done|]); (split; [done|]); (split; [done|]); (split; [done|]).
  - by exists [CallBind (next_socket w) preferred false].
  - by exists [CallBind (next_socket w) preferred true].
  - by exists [CallBind (next_socket w) preferred false; CallBind (next_socket w) 0 true].
  - by exists [CallBind (next_socket w) preferred false; CallBind (next_socket w) 0 false].
Qed.

(** ** The server and main *)

Section MainFacts.

(** All that the constructor of the server can do. *)
Lemma server_run port directory w :
  ThreadingHTTPServer port directory w =
    if negb (Socket.port_in_range port) then
      (Raise OverflowError, log_calls (probe_calls (next_socket w) port false) w)
    else match Socket.grant w port with
         | Some q =>
             (Ret (Httpd (next_socket w) q directory),
              log_calls (server_calls (next_socket w) port)
                (set_net ({[q]} ∪ w_bound w)
                         (<[next_socket w := Listening q]> (w_socks w)) w))
         | None =>
             (Raise (OSError EADDRINUSE),
              log_calls (probe_calls (next_socket w) port false) w)
         end.
Proof.
  pose proof (next_socket_is_new w) as Hfd.
  unfold ThreadingHTTPServer, bind at 1. rewrite socket_run.
  unfold probe_calls, server_calls.
  generalize dependent (next_socket w). intros fd Hfd.
  unfold or_cleanup, bind, Socket.bind.
  cbn [w_socks log_call log_calls set_net].
  rewrite lookup_insert_eq.
  destruct (negb (Socket.port_in_range port)).
  - unfold Socket.close, raise. cbn. rewrite lookup_insert_eq. cbn.
    f_equal. same_world. by apply opened_then_closed.
  - rewrite (grant_ext w) by reflexivity.
    destruct (Socket.grant w port) as [q|].
    + unfold Socket.getsockname, Socket.listen. cbn.
      repeat (rewrite lookup_insert_eq; cbn). f_equal. same_world.
      by rewrite !insert_insert_eq.
    + unfold Socket.close, raise. cbn. rewrite lookup_insert_eq. cbn.
      f_equal. same_world. by apply opened_then_closed.
Qed.

Lemma not_a_directory_isdir w path :
  not_a_directory w path -> isdir (w_stat w) path = false.
Proof. unfold isdir. by intros [->|[c ->]]. Qed.

Lemma startup_not_a_directory a w :
  isdir (w_stat w) (serve_dir_of a w) = false ->
  startup a w =
    (Raise (SystemExit 1),
     add_stderr ("Error: directory not found: " +:+ serve_dir_of a w) w).
Proof.
  intros Hd. unfold startup, bind, os_path_abspath, os_path_isdir.
  fold (serve_dir_of a w). rewrite Hd. reflexivity.
Qed.

Lemma startup_directory a w :
  isdir (w_stat w) (serve_dir_of a w) = true ->
  startup a w =
    (port <- find_free_port (arg_port a) ;;
     httpd <- ThreadingHTTPServer port (serve_dir_of a w) ;;
     print (announcement (serve_dir_of a w) port) ;;
     print "Press Ctrl+C to stop." ;;
     ret httpd)%py w.
Proof.
  intros Hd. unfold startup, bind at 1 2 3, os_path_abspath, os_path_isdir.
  fold (serve_dir_of a w). rewrite Hd. reflexivity.
Qed.

(** All that [startup] can do in a directory. *)
Lemma startup_run a w :
  isdir (w_stat w) (serve_dir_of a w) = true ->
  startup a w =
    let fd := next_socket w in
    let p := arg_port a in
    let dir := serve_dir_of a w in
    if negb (Socket.port_in_range p) then
      (Raise OverflowError, log_calls (probe_calls fd p false) w)
    else match Socket.grant w p with
         | Some q =>
             (Ret (Httpd fd q dir),
              started w (probe_calls fd p true ++ server_calls fd p) q dir p)
         | None =>
             match Socket.assign_ephemeral w with
             | Some q =>
                 (Ret (Httpd fd q dir),
                  started w (fallback_calls fd p true ++ server_calls fd q)
                          q dir q)
             | None =>
                 (Raise (OSError EADDRINUSE),
                  log_calls (fallback_calls fd p false) w)
             end
         end.
Proof.
  intros Hd. rewrite (startup_directory _ _ Hd). cbv zeta.
  unfold bind at 1. rewrite find_free_port_run.
  destruct (negb (Socket.port_in_range (arg_port a))) eqn:Hr; [done|].
  destruct (Socket.grant w (arg_port a)) as [q|] eqn:Hg.
  - unfold bind at 1. rewrite server_run, Hr.
    rewrite (grant_ext w) by reflexivity. rewrite Hg.
    unfold bind, print, ret. cbn. f_equal. same_world.
  - destruct (Socket.assign_ephemeral w) as [q|] eqn:He; [|done].
    apply assign_ephemeral_Some in He as [Hq Hf].
    unfold bind at 1. rewrite server_run, in_range_true by lia.
    rewrite (grant_ext w) by reflexivity.
    rewrite grant_free by done.
    unfold bind, print, ret. cbn. f_equal. same_world.
Qed.

(** What [startup] has done when it returns. *)
Lemma startup_Ret a w h w1 :
  startup a w = (Ret h, w1) ->
  isdir (w_stat w) (serve_dir_of a w) = true
  /\ exists cs q ann,
       h = Httpd (next_socket w) q (serve_dir_of a w)
       /\ w1 = started w cs q (serve_dir_of a w) ann
       /\ 1 <= q <= 65535 /\ (q ∉ w_bound w)
       /\ (arg_port a <> 0 -> ann = q)
       /\ (arg_port a = 0 -> ann = 0).
Proof.
  intros Hrun.
  destruct (isdir (w_stat w) (serve_dir_of a w)) eqn:Hd.
  2:{ by rewrite startup_not_a_directory in Hrun. }
  rewrite startup_run in Hrun by done. cbv zeta in Hrun. split; [done|].
  destruct (negb (Socket.port_in_range (arg_port a))) eqn:Hr; [done|].
  apply negb_false_iff in Hr. unfold Socket.port_in_range in Hr.
  destruct (Socket.grant w (arg_port a)) as [q|] eqn:Hg.
  - injection Hrun as <- <-. eexists _, q, (arg_port a).
    split; [done|]. split; [done|].
    unfold Socket.grant in Hg.
    destruct (decide (arg_port a = 0)) as [H0|H0].
    + apply assign_ephemeral_Some in Hg as [Hq Hf].
      split; [done|]. split; [done|]. by split.
    + destruct (decide (arg_port a ∈ w_bound w)); [done|].
      injection Hg as <-. repeat split; (lia || done).
  - destruct (Socket.assign_ephemeral w) as [q|] eqn:He; [|done].
    injection Hrun as <- <-. eexists _, q, q.
    split; [done|]. split; [done|].
    destruct (assign_ephemeral_Some _ _ He) as [Hq Hf].
    split; [done|]. split; [done|]. split; [done|].
    intros H0. rewrite H0, grant_0 in Hg. congruence.
Qed.


(** [main] is its start followed by the [try] statement. *)
Lemma main_phases a w : main a w = (h <- startup a ;; serving h)%py w.
Proof.
  unfold main, startup, bind, os_path_abspath, os_path_isdir.
  destruct (negb (isdir (w_stat w) _)); [done|].
  unfold ret, print, serving. cbv beta iota.
  destruct (find_free_port (arg_port a) w) as [[port|e|] w1]; [|done|done].
  destruct (ThreadingHTTPServer port _ w1) as [[h|e|] w2]; done.
Qed.

Lemma main_startup_raises a w e w1 :
  startup a w = (Raise e, w1) -> main a w = (Raise e, w1).
Proof. intros H. rewrite main_phases. unfold bind. by rewrite H. Qed.

Lemma main_startup_returns a w h w1 :
  startup a w = (Ret h, w1) -> main a w = serving h w1.
Proof. intros H. rewrite main_phases. unfold bind. by rewrite H. Qed.

(** All that the [try] statement of [main] can do. *)
Lemma serving_run h w :
  serving h w =
    match w_serving w with
    | ServesForever => (Diverge, w)
    | ServeRaises e =>
        if is_KeyboardInterrupt e
        then (Ret tt, snd (server_close h (add_stdout shutdown_message w)))
        else (Raise e, snd (server_close h w))
    | ServeReturns => (Ret tt, snd (server_close h w))
    end.
Proof.
  unfold serving, try_finally, try_except, serve_forever.
  destruct (w_serving w) as [|e|]; [done| |].
  - destruct (is_KeyboardInterrupt e).
    + unfold print, server_close, Socket.close. by repeat case_match.
    + unfold server_close, Socket.close. by repeat case_match.
  - unfold server_close, Socket.close. by repeat case_match.
Qed.

Lemma server_close_output h w :
  w_stdout (snd (server_close h w)) = w_stdout w
  /\ w_stderr (snd (server_close h w)) = w_stderr w.
Proof.
  unfold server_close, Socket.close.
  by destruct (w_socks w !! srv_socket h) as [[]|].
Qed.

(** The world [main] leaves when the serving phase ends: the socket of the
    server is closed and its port released. *)
Lemma serving_ends a w h w1 :
  startup a w = (Ret h, w1) ->
  w_serving w <> ServesForever ->
  let r := main a w in
  w_socks (snd r) !! srv_socket h = None
  /\ (srv_port h ∉ w_bound (snd r))
  /\ last (w_calls (snd r)) = Some (CallClose (srv_socket h))
  /\ w_socks (snd r) = w_socks w
  /\ w_bound (snd r) = w_bound w.
Proof.
  intros Hs Hserve. cbv zeta. rewrite (main_startup_returns _ _ _ _ Hs).
  apply startup_Ret in Hs as (Hd & cs & q & ann & -> & -> & Hq & Hf & _).
  pose proof (next_socket_is_new w) as Hfd.
  rewrite serving_run. cbn [w_serving started srv_socket srv_port].
  assert (Hclose : forall out sv,
    let w' := snd (server_close (Httpd (next_socket w) q (serve_dir_of a w))
      (World (w_cwd w) (w_stat w) ({[q]} ∪ w_bound w) (w_ephemeral w)
         (<[next_socket w := Listening q]> (w_socks w)) (w_calls w ++ cs)
         out (w_stderr w) sv)) in
    w_socks w' !! next_socket w = None /\ (q ∉ w_bound w')
    /\ last (w_calls w') = Some (CallClose (next_socket w))
    /\ w_socks w' = w_socks w /\ w_bound w' = w_bound w).
  { intros out sv. unfold server_close, Socket.close. cbn.
    rewrite lookup_insert_eq. cbn.
    rewrite opened_then_closed, bound_then_released, last_snoc by done.
    done. }
  destruct (w_serving w) as [|e|]; [done| |].
  - destruct (is_KeyboardInterrupt e); apply Hclose.
  - apply Hclose.
Qed.

End MainFacts.

(** C4. When the path of [--dir], made absolute, does not exist or is not
    a directory, [main] prints one line to the standard error, which ends
    with that path, and exits with status 1; it has made no socket call,
    holds no new socket and has printed nothing else: no server starts. *)
Theorem missing_directory_exits (a : args) (w : world) :
  not_a_directory w (serve_dir_of a w) ->
  let r := main a w in
  fst r = Raise (SystemExit 1)
  /\ exit_status (fst r) = Some 1
  /\ w_stderr (snd r)
     = (w_stderr w ++ ["Error: directory not found: " +:+ serve_dir_of a w])%list
  /\ w_stdout (snd r) = w_stdout w
  /\ new_calls w (snd r) = []
  /\ w_socks (snd r) = w_socks w
  /\ w_bound (snd r) = w_bound w.
Proof.
  intros Hd%not_a_directory_isdir. cbv zeta.
  rewrite (main_startup_raises _ _ _ _ (startup_not_a_directory _ _ Hd)).
  cbn. unfold new_calls. by rewrite drop_all.
Qed.

Lemma missing_directory_exits_witness :
  exit_status (fst (main (Args 8000 "nowhere") (demo_world ServesForever)))
    = Some 1
  /\ w_stderr (snd (main (Args 8000 "nowhere") (demo_world ServesForever)))
     = ["Error: directory not found: /home/u/site/nowhere"].
Proof.
  assert (H : not_a_directory (demo_world ServesForever)
                (serve_dir_of (Args 8000 "nowhere") (demo_world ServesForever))).
  { left. reflexivity. }
  destruct (missing_directory_exits _ _ H) as (_ & Hx & He & _).
  split; [exact Hx | exact He].
Defined.

(** For a port other than 0, the port announced is the port the server
    listens on, and it is a port number. *)
Lemma announced_port_listens a w h w1 :
  arg_port a <> 0 ->
  startup a w = (Ret h, w1) ->
  w_stdout w1
    = (w_stdout w ++ [announcement (srv_directory h) (srv_port h);
                      "Press Ctrl+C to stop."])%list
  /\ w_socks w1 !! srv_socket h = Some (Listening (srv_port h))
  /\ 1 <= srv_port h <= 65535.
Proof.
  intros H0 (Hd & cs & q & ann & -> & -> & Hq & Hf & Ha & _)%startup_Ret.
  rewrite (Ha H0). cbn. by rewrite lookup_insert_eq.
Qed.

(** C5 fails for [--port 0]. The probe binds port 0, [find_free_port]
    returns 0 and not the port of the probe, and the server, bound to
    port 0 in its turn, listens on the ephemeral port [q] the system
    assigns: the line printed announces port 0, on which nothing
    listens. *)
Theorem port_zero_is_announced (a : args) (w : world) (q : Z) :
  arg_port a = 0 ->
  isdir (w_stat w) (serve_dir_of a w) = true ->
  Socket.assign_ephemeral w = Some q ->
  let r := startup a w in
  fst r = Ret (Httpd (next_socket w) q (serve_dir_of a w))
  /\ w_stdout (snd r)
     = (w_stdout w ++ [announcement (serve_dir_of a w) 0;
                       "Press Ctrl+C to stop."])%list
  /\ w_socks (snd r) !! next_socket w = Some (Listening q)
  /\ q <> 0.
Proof.
  intros H0 Hd Hq. cbv zeta. rewrite startup_run by done. cbv zeta.
  rewrite H0. change (negb (Socket.port_in_range 0)) with false. cbv iota.
  rewrite grant_0, Hq. cbn [fst snd started w_stdout w_socks].
  rewrite lookup_insert_eq. apply assign_ephemeral_Some in Hq.
  repeat split; (done || lia).
Qed.

Lemma port_zero_is_announced_witness :
  w_stdout (snd (startup (Args 0 ".") (demo_world ServesForever)))
    = ["Serving '/home/u/site' at http://127.0.0.1:0"; "Press Ctrl+C to stop."]
  /\ w_socks (snd (startup (Args 0 ".") (demo_world ServesForever))) !! 0%nat
     = Some (Listening 49152).
Proof.
  destruct (port_zero_is_announced (Args 0 ".") (demo_world ServesForever) 49152
              eq_refl eq_refl eq_refl) as (_ & Ho & Hs & _).
  split; [exact Ho | exact Hs].
Defined.

(** C6. [find_free_port] makes at most two binds, one of them the fallback;
    when the first raises an [OSError] and the bind to port 0 raises too,
    the exception of the latter leaves [find_free_port] after these two
    binds, and it leaves [main]: the process ends with status 1, having
    announced nothing and holding no socket. *)
Theorem fallback_failure_is_fatal (preferred : Z) (w : world) :
  (length (List.filter is_bind
             (new_calls w (snd (find_free_port preferred w)))) <= 2)%nat
  /\ forall e w1 e' w2,
       Socket.bind (next_socket w) preferred (snd (Socket.socket w)) = (Raise e, w1) ->
       is_OSError e = true ->
       Socket.bind (next_socket w) 0 w1 = (Raise e', w2) ->
       fst (find_free_port preferred w) = Raise e'
       /\ new_calls w (snd (find_free_port preferred w))
          = fallback_calls (next_socket w) preferred false
       /\ forall a,
            arg_port a = preferred ->
            isdir (w_stat w) (serve_dir_of a w) = true ->
            fst (main a w) = Raise e'
            /\ exit_status (fst (main a w)) = Some 1
            /\ w_stdout (snd (main a w)) = w_stdout w
            /\ w_socks (snd (main a w)) = w_socks w.
Proof.
  split.
  - rewrite find_free_port_run.
    destruct (negb (Socket.port_in_range preferred));
      [|destruct (Socket.grant w preferred);
        [|destruct (Socket.assign_ephemeral w)]];
      cbn [snd]; rewrite new_calls_log; cbn; lia.
  - intros e w1 e' w2 Hb He Hb'.
    destruct (first_bind_OSError _ _ _ _ Hb He) as [Hr Hg].
    destruct (fallback_bind_raises _ _ _ _ _ _ Hb Hb') as [Hn ->].
    rewrite find_free_port_run, Hr, Hg, Hn. cbn [negb fst snd].
    rewrite new_calls_log. split; [done|]. split; [done|].
    intros a <- Hd.
    assert (Hs : startup a w
                 = (Raise (OSError EADDRINUSE),
                    log_calls (fallback_calls (next_socket w) (arg_port a) false) w)).
    { rewrite startup_run by done. cbv zeta. by rewrite Hr, Hg, Hn. }
    rewrite (main_startup_raises _ _ _ _ Hs). done.
Qed.

Lemma fallback_failure_is_fatal_witness :
  fst (find_free_port 8000 full_world) = Raise (OSError EADDRINUSE)
  /\ exit_status (fst (main (Args 8000 ".") full_world)) = Some 1.
Proof.
  destruct (fallback_failure_is_fatal 8000 full_world) as [_ H].
  edestruct H as (Hf & _ & Hm).
  - vm_compute. reflexivity.
  - reflexivity.
  - vm_compute. reflexivity.
  - split; [exact Hf|].
    destruct (Hm (Args 8000 ".") eq_refl eq_refl) as (_ & Hx & _). exact Hx.
Defined.

(** C9. When [serve_forever] is interrupted, [main] prints the shutdown
    message, closes the socket of the server, whose port is released, and
    returns: the process exits with status 0. *)
Theorem interrupt_shuts_down (a : args) (w : world) (h : httpd) (w1 : world) :
  startup a w = (Ret h, w1) ->
  w_serving w = ServeRaises KeyboardInterrupt ->
  let r := main a w in
  fst r = Ret tt
  /\ exit_status (fst r) = Some 0
  /\ w_stdout (snd r) = (w_stdout w1 ++ [shutdown_message])%list
  /\ w_socks (snd r) !! srv_socket h = None
  /\ (srv_port h ∉ w_bound (snd r))
  /\ last (w_calls (snd r)) = Some (CallClose (srv_socket h)).
Proof.
  intros Hs Hk. cbv zeta.
  assert (Hne : w_serving w <> ServesForever) by (by rewrite Hk).
  destruct (serving_ends _ _ _ _ Hs Hne) as (Hc & Hp & Hl & _).
  rewrite (main_startup_returns _ _ _ _ Hs), serving_run in *.
  apply startup_Ret in Hs as (_ & cs & q & ann & -> & -> & _).
  cbn [w_serving started] in *. rewrite Hk in *.
  cbn [is_KeyboardInterrupt fst snd] in *.
  split; [done|]. split; [done|]. split; [|done].
  etransitivity; [apply server_close_output|]. reflexivity.
Qed.

Lemma interrupt_shuts_down_witness :
  exit_status
    (fst (main (Args 8000 ".") (demo_world (ServeRaises KeyboardInterrupt))))
    = Some 0
  /\ w_stdout
       (snd (main (Args 8000 ".") (demo_world (ServeRaises KeyboardInterrupt))))
     = ["Serving '/home/u/site' at http://127.0.0.1:49152";
        "Press Ctrl+C to stop."; shutdown_message].
Proof.
  edestruct (interrupt_shuts_down (Args 8000 ".")
               (demo_world (ServeRaises KeyboardInterrupt)))
    as (_ & Hx & Ho & _).
  - vm_compute. reflexivity.
  - reflexivity.
  - split; [exact Hx | exact Ho].
Defined.

(** C10. Whatever exception [serve_forever] raises, the socket of the
    server is closed when [main] ends, by returning after an interrupt or
    by letting the exception through: the [close] is the last socket call,
    and the process holds the sockets it held before [main]. *)
Theorem server_closed_on_any_exception (a : args) (w : world) (h : httpd)
    (w1 : world) (e : exn) :
  startup a w = (Ret h, w1) ->
  w_serving w = ServeRaises e ->
  let r := main a w in
  fst r = (if is_KeyboardInterrupt e then Ret tt else Raise e)
  /\ w_socks (snd r) !! srv_socket h = None
  /\ last (w_calls (snd r)) = Some (CallClose (srv_socket h))
  /\ w_socks (snd r) = w_socks w
  /\ w_bound (snd r) = w_bound w.
Proof.
  intros Hs He. cbv zeta.
  assert (Hne : w_serving w <> ServesForever) by (by rewrite He).
  destruct (serving_ends _ _ _ _ Hs Hne) as (Hc & _ & Hl & Hsocks & Hb).
  split; [|done].
  rewrite (main_startup_returns _ _ _ _ Hs), serving_run.
  apply startup_Ret in Hs as (_ & cs & q & ann & -> & -> & _).
  cbn [w_serving started]. rewrite He. by destruct (is_KeyboardInterrupt e).
Qed.

Lemma server_closed_on_any_exception_witness :
  fst (main (Args 8001 ".")
         (demo_world (ServeRaises (PyException "RuntimeError"))))
    = Raise (PyException "RuntimeError")
  /\ w_socks (snd (main (Args 8001 ".")
                     (demo_world (ServeRaises (PyException "RuntimeError")))))
     = ∅.
Proof.
  edestruct (server_closed_on_any_exception (Args 8001 ".")
               (demo_world (ServeRaises (PyException "RuntimeError"))))
    as (Hr & _ & _ & Hs & _).
  - vm_compute. reflexivity.
  - reflexivity.
  - split; [exact Hr | exact Hs].
Defined.

(** ** Strings and paths *)

Lemma append_nil_l s : "" +:+ s = s.
Proof. reflexivity. Qed.

Lemma append_cons a s t : String a s +:+ t = String a (s +:+ t).
Proof. reflexivity. Qed.


Section SplitFacts.

Variable c : ascii.

Lemma split_nonempty s : Str.split c s <> [].
Proof.
  destruct s as [|a r]; cbn; [done|].
  destruct (Ascii.eqb a c); [done|]. by destruct (Str.split c r).
Qed.


Lemma split_no_sep_id w : Str.contains_char c w = false -> Str.split c w = [w].
Proof.
  induction w as [|a r IH]; cbn; [done|].
  intros [Ha Hr]%orb_false_iff. by rewrite Ha, (IH Hr).
Qed.

(** Splitting on both sides of a separator. *)
Lemma split_app_sep a b :
  Str.split c (a +:+ String c b) = (Str.split c a ++ Str.split c b)%list.
Proof.
  induction a as [|x a IH]; rewrite ?append_nil_l, ?append_cons; cbn.
  - by rewrite Ascii.eqb_refl.
  - destruct (Ascii.eqb x c); [by rewrite IH|].
    rewrite IH. pose proof (split_nonempty a).
    by destruct (Str.split c a).
Qed.


End SplitFacts.

Section PathFacts.

Import Handler.

Lemma plain_name_not_abs w : plain_name w -> Str.startswith "/" w = false.
Proof.
  intros (Hne & _ & _ & Hs). destruct w as [|a r]; [done|].
  cbn [Str.contains_char] in Hs. apply orb_false_iff in Hs as [Ha _].
  cbn [Str.startswith]. by rewrite Ascii.eqb_sym, Ha.
Qed.








End PathFacts.

(** ** The request handler *)

Section HandlerFacts.

Import Handler.

Variable unquote_escapes : string -> string.
Variable urlsplit_path : string -> string.
Variable stat : string -> option node.
Variable mtime : string -> Z.
Variable directory : string.











End HandlerFacts.








(** * More properties of the program *)

(** ** find_free_port, whatever it is asked *)








(** ** main, however it ends *)

(** X3. With a port outside 0..65535, [main] in a directory ends with
    the [OverflowError] of the probe: exit status 1, nothing printed, the
    probe opened, refused and closed, no server. *)
Theorem port_out_of_range_is_fatal (a : args) (w : world) :
  isdir (w_stat w) (serve_dir_of a w) = true ->
  ~ (0 <= arg_port a <= 65535) ->
  let r := main a w in
  fst r = Raise OverflowError
  /\ exit_status (fst r) = Some 1
  /\ w_stdout (snd r) = w_stdout w
  /\ w_stderr (snd r) = w_stderr w
  /\ new_calls w (snd r) = probe_calls (next_socket w) (arg_port a) false
  /\ w_socks (snd r) = w_socks w.
Proof.
  intros Hd Hr. cbv zeta.
  assert (Hs : startup a w
               = (Raise OverflowError,
                  log_calls (probe_calls (next_socket w) (arg_port a) false) w)).
  { rewrite startup_run by done. cbv zeta.
    replace (Socket.port_in_range (arg_port a)) with false; [done|].
    unfold Socket.port_in_range. lia. }
  rewrite (main_startup_raises _ _ _ _ Hs). cbn [fst snd].
  by rewrite new_calls_log.
Qed.

Lemma port_out_of_range_is_fatal_witness :
  fst (main (Args 65536 ".") (demo_world ServesForever)) = Raise OverflowError
  /\ exit_status (fst (main (Args 65536 ".") (demo_world ServesForever)))
     = Some 1.
Proof.
  assert (Hr : ~ (0 <= arg_port (Args 65536 ".") <= 65535)) by (cbn; lia).
  destruct (port_out_of_range_is_fatal (Args 65536 ".")
              (demo_world ServesForever) eq_refl Hr) as (H1 & H2 & _).
  split; [exact H1 | exact H2].
Defined.

Lemma startup_never_diverges a w : fst (startup a w) <> Diverge.
Proof.
  destruct (isdir (w_stat w) (serve_dir_of a w)) eqn:Hd.
  - rewrite startup_run by done. cbv zeta. by repeat case_match.
  - by rewrite startup_not_a_directory.
Qed.

(** A start that raises has opened and closed the probe at most. *)
Lemma startup_raises_world a w e w1 :
  startup a w = (Raise e, w1) ->
  w_stdout w1 = w_stdout w /\ w_socks w1 = w_socks w /\ w_bound w1 = w_bound w.
Proof.
  intros Hs. destruct (isdir (w_stat w) (serve_dir_of a w)) eqn:Hd.
  - rewrite startup_run in Hs by done. cbv zeta in Hs.
    repeat case_match; simplify_eq; done.
  - rewrite startup_not_a_directory in Hs by done. by simplify_eq.
Qed.








(** X7. What [main] prints on the standard output: nothing when the start
    raises; else the two lines of the start, followed by the shutdown
    message when, and only when, [serve_forever] was interrupted. *)
Theorem main_output (a : args) (w : world) :
  match startup a w with
  | (Ret h, w1) =>
      w_stdout (snd (main a w))
      = (w_stdout w1
         ++ match w_serving w with
            | ServeRaises KeyboardInterrupt => [shutdown_message]
            | _ => []
            end)%list
  | (_, _) => w_stdout (snd (main a w)) = w_stdout w
  end.
Proof.
  destruct (startup a w) as [[h|e|] w1] eqn:Hs.
  - rewrite (main_startup_returns _ _ _ _ Hs), serving_run.
    pose proof Hs as (Hd & cs & q & ann & -> & -> & _)%startup_Ret.
    cbn [w_serving started].
    destruct (w_serving w) as [|e|].
    + cbn. by rewrite app_nil_r.
    + destruct e; cbn [is_KeyboardInterrupt snd];
        (etransitivity; [apply server_close_output|]); cbn;
        by rewrite ?app_nil_r.
    + cbn [snd]. etransitivity; [apply server_close_output|]. cbn.
      by rewrite app_nil_r.
  - rewrite (main_startup_raises _ _ _ _ Hs). cbn [snd].
    by destruct (startup_raises_world _ _ _ _ Hs) as (? & _).
  - by destruct (startup_never_diverges a w); rewrite Hs.
Qed.



(** X9. The constructor of the server gives a server or leaves nothing:
    when it returns, its new socket listens on a port that was free, the
    port asked for unless that was 0; when it raises, the socket it made
    is closed, and the sockets and the ports are those of before. *)
Theorem server_is_all_or_nothing (port : Z) (directory : string) (w : world) :
  match ThreadingHTTPServer port directory w with
  | (Ret h, w') =>
      w_socks w' = <[srv_socket h := Listening (srv_port h)]> (w_socks w)
      /\ w_socks w !! srv_socket h = None
      /\ port_free w (srv_port h)
      /\ (port <> 0 -> srv_port h = port)
      /\ srv_directory h = directory
  | (Raise e, w') =>
      w_socks w' = w_socks w /\ w_bound w' = w_bound w
      /\ last (w_calls w') = Some (CallClose (next_socket w))
      /\ (e = OverflowError \/ e = OSError EADDRINUSE)
  | (Diverge, _) => False
  end.
Proof.
  rewrite server_run. pose proof (next_socket_is_new w) as Hfd.
  destruct (Socket.port_in_range port) eqn:Hr; cbn [negb].
  - destruct (Socket.grant w port) as [q|] eqn:Hg.
    + cbn. split; [done|]. split; [done|].
      unfold Socket.port_in_range in Hr. unfold Socket.grant in Hg.
      destruct (decide (port = 0)) as [->|H0].
      * apply assign_ephemeral_Some in Hg as [Hq Hf].
        split; [by split|]. by split.
      * destruct (decide (port ∈ w_bound w)); [done|]. injection Hg as <-.
        split; [split; [lia|done]|]. by split.
    + cbn. rewrite last_app. cbn. auto.
  - cbn. rewrite last_app. cbn. auto.
Qed.

(** ** The directory served *)

Section NormpathFacts.

Import Handler.










End NormpathFacts.



(** ** The path of a request *)

Section TranslateFacts.

Import Handler.

Lemma before_no_sep c s : Str.contains_char c s = false -> Str.before c s = s.
Proof.
  induction s as [|a r IH]; cbn; [done|].
  intros [Ha Hr]%orb_false_iff. by rewrite Ha, (IH Hr).
Qed.

Lemma before_app c s t :
  Str.contains_char c s = false ->
  Str.before c (s +:+ t) = s +:+ Str.before c t.
Proof.
  induction s as [|a r IH]; rewrite ?append_nil_l, ?append_cons; cbn; [done|].
  intros [Ha Hr]%orb_false_iff. by rewrite Ha, (IH Hr).
Qed.

Lemma before_sep c t : Str.before c (String c t) = "".
Proof. cbn. by rewrite Ascii.eqb_refl. Qed.

Lemma append_nil_r s : s +:+ "" = s.
Proof. induction s; [done|]. rewrite append_cons. congruence. Qed.

Lemma endswith_char_snoc c s : Str.endswith_char c (s +:+ String c "") = true.
Proof.
  induction s as [|a r IH]; rewrite ?append_nil_l, ?append_cons.
  - cbn. apply Ascii.eqb_refl.
  - cbn [Str.endswith_char]. rewrite IH.
    destruct r; [|done]. by rewrite append_nil_l.
Qed.

Lemma endswith_char_suffix c s t :
  t <> "" -> Str.endswith_char c (s +:+ t) = Str.endswith_char c t.
Proof.
  intros Ht.
  induction s as [|a r IH]; rewrite ?append_nil_l, ?append_cons; [done|].
  cbn [Str.endswith_char]. rewrite IH.
  destruct (r +:+ t) eqn:Hrt; [|done].
  destruct r; [by rewrite append_nil_l in Hrt|by rewrite append_cons in Hrt].
Qed.

Lemma contains_char_app c s t :
  Str.contains_char c (s +:+ t)
  = Str.contains_char c s || Str.contains_char c t.
Proof.
  induction s as [|a r IH]; rewrite ?append_nil_l, ?append_cons; [done|].
  cbn [Str.contains_char]. by rewrite IH, orb_assoc.
Qed.

Lemma contains_char_join c names :
  c <> "/"%char ->
  Forall (fun n => Str.contains_char c n = false) names ->
  Str.contains_char c (Str.join "/" names) = false.
Proof.
  intros Hc. induction 1 as [|n ns Hn Hns IH]; [done|].
  cbn [Str.join]. destruct ns as [|n' ns']; [done|].
  rewrite !contains_char_app, Hn, IH. cbn [Str.contains_char orb].
  destruct (Ascii.eqb_spec "/" c); [congruence|done].
Qed.

Lemma split_leading_sep c s :
  Str.split c (String c s) = "" :: Str.split c s.
Proof. cbn. by rewrite Ascii.eqb_refl. Qed.

(** Splitting undoes joining, for names without the separator. *)
Lemma split_join names :
  names <> [] -> Forall plain_name names ->
  Str.split "/" (Str.join "/" names) = names.
Proof.
  intros Hne Hp. induction Hp as [|n ns Hn Hns IH]; [done|].
  cbn [Str.join]. destruct ns as [|n' ns'].
  - apply split_no_sep_id. by destruct Hn as (_ & _ & _ & ?).
  - change ("/" +:+ Str.join "/" (n' :: ns'))
      with (String "/" (Str.join "/" (n' :: ns'))).
    rewrite split_app_sep, IH by done.
    rewrite split_no_sep_id; [done|]. by destruct Hn as (_ & _ & _ & ?).
Qed.

Lemma normpath_fold_names n names acc :
  Forall plain_name names ->
  fold_left (PosixPath.normpath_step n) names acc = (acc ++ names)%list.
Proof.
  intros Hp. revert acc.
  induction Hp as [|w ws (Hne & Hd & Hdd & _) _ IH]; intros acc; cbn [fold_left].
  - by rewrite app_nil_r.
  - rewrite IH.
    unfold PosixPath.normpath_step, PosixPath.curdir, PosixPath.pardir.
    destruct (String.eqb_spec w ""); [done|].
    destruct (String.eqb_spec w "."); [done|].
    destruct (String.eqb_spec w ".."); [done|].
    cbn [orb negb]. by rewrite <- app_assoc.
Qed.

Lemma nonempty_plain names :
  Forall plain_name names -> nonempty names = names.
Proof.
  induction 1 as [|w ws (Hne & _) _ IH]; [done|].
  unfold nonempty in *. cbn [List.filter].
  destruct (String.eqb_spec w ""); [done|]. cbn [negb]. by rewrite IH.
Qed.

Lemma translate_fold_names names path :
  Forall plain_name names ->
  fold_left translate_step names path = fold_left PosixPath.join names path.
Proof.
  intros Hp. revert path.
  induction Hp as [|w ws (Hne & Hd & Hdd & Hs) _ IH]; intros path;
    cbn [fold_left]; [done|].
  rewrite IH. f_equal. unfold translate_step, PosixPath.dirname.
  rewrite split_no_sep_id by done.
  unfold PosixPath.curdir, PosixPath.pardir.
  destruct (String.eqb_spec w "."); [done|].
  by destruct (String.eqb_spec w "..").
Qed.

(** A path of plain names after a separator is its own [normpath]. *)
Lemma plain_path_normal names :
  names <> [] -> Forall plain_name names ->
  PosixPath.normpath (String "/" (Str.join "/" names))
  = String "/" (Str.join "/" names).
Proof.
  intros Hne Hp. unfold PosixPath.normpath, PosixPath.sep.
  cbn [String.eqb]. change (Str.startswith "/" (String "/" _)) with true.
  cbv iota.
  replace (Str.startswith "//" (String "/" (Str.join "/" names))) with false.
  2:{ change (Str.startswith "//" (String "/" (Str.join "/" names)))
        with (Ascii.eqb "/" "/" && Str.startswith "/" (Str.join "/" names)).
      rewrite Ascii.eqb_refl. cbn [andb]. symmetry.
      destruct Hp as [|n ns Hn _]; [done|].
      pose proof (plain_name_not_abs _ Hn) as Hna.
      cbn [Str.join]. destruct ns; [done|].
      destruct n as [|x n]; [by destruct Hn|].
      rewrite append_cons. cbn [Str.startswith] in *.
      by destruct (Ascii.eqb "/" x). }
  cbn [andb Nat.eqb].
  rewrite split_leading_sep, split_join by done. cbn [fold_left].
  change (PosixPath.normpath_step 1 [] "") with (@nil string).
  rewrite normpath_fold_names by done. cbn [app Str.times].
  by rewrite append_cons, append_nil_l, append_cons, append_nil_l.
Qed.

Variable unquote_escapes : string -> string.
Variable directory : string.

(** X11. The query and the fragment of a request path do not count:
    [translate_path] maps a path followed by [?] or [#] and anything to
    what it maps the path to. *)
Theorem translate_path_drops_query (path extra : string) :
  Str.contains_char "?" path = false ->
  Str.contains_char "#" path = false ->
  translate_path unquote_escapes directory (path +:+ String "?" extra)
  = translate_path unquote_escapes directory path
  /\ translate_path unquote_escapes directory (path +:+ String "#" extra)
     = translate_path unquote_escapes directory path.
Proof.
  intros Hq Hf.
  assert (H0 : Str.before "#" (Str.before "?" path) = path).
  { rewrite (before_no_sep "?") by done. by apply before_no_sep. }
  assert (H1 : Str.before "#" (Str.before "?" (path +:+ String "?" extra))
               = path).
  { rewrite before_app, before_sep, append_nil_r by done.
    by apply before_no_sep. }
  assert (H2 : Str.before "#" (Str.before "?" (path +:+ String "#" extra))
               = path).
  { rewrite (before_app "?") by done.
    cbn [Str.before]. change (Ascii.eqb "#" "?") with false. cbv iota.
    by rewrite before_app, before_sep, append_nil_r. }
  unfold translate_path. by rewrite H0, H1, H2.
Qed.

(** X12. A request path made of a separator before each of one or more
    plain names, without [?], [#] or [%], is mapped to the directory
    joined with these names, one after the other, unless the path ends in
    blanks after a separator. *)
Theorem translate_plain_path (names : list string) :
  names <> [] ->
  Forall plain_name names ->
  Forall no_url_syntax names ->
  Str.endswith_char "/" (Str.rstrip (String "/" (Str.join "/" names))) = false ->
  translate_path unquote_escapes directory (String "/" (Str.join "/" names))
  = fold_left PosixPath.join names directory.
Proof.
  intros Hne Hp Hu Hts.
  assert (Hc : forall c, c <> "/"%char ->
             Forall (fun n => Str.contains_char c n = false) names ->
             Str.contains_char c (String "/" (Str.join "/" names)) = false).
  { intros c Hc Hall. cbn [Str.contains_char].
    rewrite contains_char_join by done.
    destruct (Ascii.eqb_spec "/" c); [congruence|done]. }
  unfold translate_path, unquote.
  rewrite (before_no_sep "?"), (before_no_sep "#"), Hts.
  - rewrite Hc; [|done|].
    + rewrite plain_path_normal, split_leading_sep, split_join by done.
      unfold nonempty at 1. cbn [List.filter String.eqb negb].
      fold (nonempty names). rewrite nonempty_plain by done.
      by apply translate_fold_names.
    + eapply Forall_impl; [exact Hu|]. by intros n (_ & _ & ?).
  - apply Hc; [done|]. eapply Forall_impl; [exact Hu|]. by intros n (_ & ? & _).
  - apply Hc; [done|]. eapply Forall_impl; [exact Hu|]. by intros n (? & _ & _).
Qed.

End TranslateFacts.

Lemma translate_path_drops_query_witness :
  Handler.translate_path (fun s => s) "/home/u/site" "/etc/passwd?x=1#top"
  = Handler.translate_path (fun s => s) "/home/u/site" "/etc/passwd".
Proof.
  apply (proj1 (translate_path_drops_query (fun s => s) "/home/u/site"
                  "/etc/passwd" "x=1#top" eq_refl eq_refl)).
Defined.

Lemma translate_plain_path_witness :
  Handler.translate_path (fun s => s) "/home/u/site" "/etc/passwd"
  = "/home/u/site/etc/passwd".
Proof.
  apply (translate_plain_path (fun s => s) "/home/u/site" ["etc"; "passwd"]).
  - done.
  - repeat constructor; done.
  - repeat constructor.
  - reflexivity.
Defined.

(** ** The responses of the server *)

Section RespondFacts.

Import Handler.

Variable unquote_escapes : string -> string.
Variable urlsplit_path : string -> string.
Variable mtime : string -> Z.
Variable h : httpd.
Variable w : world.

(** The status [send_head] sends does not depend on the command. *)
Lemma send_file_status_command stat rq rq' path :
  rq_if_modified_since rq = rq_if_modified_since rq' ->
  rq_if_none_match rq = rq_if_none_match rq' ->
  rs_status (send_file stat mtime rq path)
  = rs_status (send_file stat mtime rq' path).
Proof.
  intros Hi Hn. unfold send_file. rewrite Hi, Hn.
  by repeat case_match.
Qed.

Lemma send_head_status_command stat directory rq rq' :
  rq_path rq = rq_path rq' ->
  rq_if_modified_since rq = rq_if_modified_since rq' ->
  rq_if_none_match rq = rq_if_none_match rq' ->
  rs_status (send_head unquote_escapes urlsplit_path stat mtime directory rq)
  = rs_status (send_head unquote_escapes urlsplit_path stat mtime directory rq').
Proof.
  intros Hp Hi Hn. unfold send_head. rewrite Hp.
  repeat case_match; try done; try by apply send_file_status_command.
  unfold list_directory. by repeat case_match.
Qed.

(** X13. The response to a HEAD request has the status of the response to
    the same request made with GET, and no body. *)
Theorem head_mirrors_get (rq : request) :
  rs_status (respond unquote_escapes urlsplit_path mtime h w
               (with_command "HEAD" rq))
  = rs_status (respond unquote_escapes urlsplit_path mtime h w
                 (with_command "GET" rq))
  /\ rs_body (respond unquote_escapes urlsplit_path mtime h w
                (with_command "HEAD" rq)) = NoBody.
Proof.
  unfold respond, handle_one_request, do_GET, do_HEAD, with_command.
  cbn [rq_command String.eqb Ascii.eqb Bool.eqb]. split; [|done].
  cbn [rs_status]. by apply send_head_status_command.
Qed.

(** X14. A GET or HEAD request whose path ends with a separator is
    answered 404 unless the path is that of a directory, even when a file
    of that name exists. *)
Theorem trailing_slash_on_a_file_is_404 (rq : request) :
  rq_command rq = "GET" \/ rq_command rq = "HEAD" ->
  Str.endswith_char "/"
    (Str.rstrip (Str.before "#" (Str.before "?" (rq_path rq)))) = true ->
  isdir (w_stat w)
        (translate_path unquote_escapes (srv_directory h) (rq_path rq)) = false ->
  rs_status (respond unquote_escapes urlsplit_path mtime h w rq) = 404.
Proof.
  intros Hc Hslash Hd. unfold respond.
  assert (H404 : rs_status (send_head unquote_escapes urlsplit_path (w_stat w)
                                      mtime (srv_directory h) rq) = 404).
  { unfold send_head. rewrite Hd. unfold send_file.
    replace (Str.endswith_char "/"
               (translate_path unquote_escapes (srv_directory h) (rq_path rq)))
      with true; [done|].
    unfold translate_path. rewrite Hslash.
    symmetry. apply endswith_char_snoc. }
  unfold handle_one_request, do_GET, do_HEAD.
  destruct Hc as [-> | ->]; cbn [String.eqb Ascii.eqb Bool.eqb]; done.
Qed.



(** X16. A GET request without [If-Modified-Since] for a directory, its
    URL path ending with a separator, is answered 200 with the content of
    the file [index.html] of that directory when there is one, whether or
    not there is an [index.htm]. *)
Theorem index_html_is_served (rq : request) (c : string) :
  rq_command rq = "GET" ->
  rq_if_modified_since rq = None ->
  isdir (w_stat w)
        (translate_path unquote_escapes (srv_directory h) (rq_path rq)) = true ->
  Str.endswith_char "/" (urlsplit_path (rq_path rq)) = true ->
  w_stat w (PosixPath.join
              (translate_path unquote_escapes (srv_directory h) (rq_path rq))
              "index.html") = Some (File c) ->
  respond unquote_escapes urlsplit_path mtime h w rq
  = Response 200
      (FileContent
         (PosixPath.join
            (translate_path unquote_escapes (srv_directory h) (rq_path rq))
            "index.html") c).
Proof.
  intros Hc Hi Hd Hu Hs.
  unfold respond, handle_one_request, do_GET. rewrite Hc.
  cbn [String.eqb Ascii.eqb Bool.eqb].
  unfold send_head. rewrite Hd, Hu. cbn [negb]. unfold isfile. rewrite Hs.
  unfold send_file, open_rb. rewrite Hs, Hi.
  replace (Str.endswith_char "/" (PosixPath.join _ "index.html")) with false;
    [done|].
  unfold PosixPath.join, PosixPath.sep.
  cbn [Str.startswith Ascii.eqb Bool.eqb andb].
  destruct (_ || _).
  - by rewrite endswith_char_suffix.
  - rewrite endswith_char_suffix; [|done]. done.
Qed.

End RespondFacts.

Lemma trailing_slash_on_a_file_is_404_witness :
  Handler.rs_status
    (respond (fun s => s) (fun s => s) (fun _ => 0) demo_server slash_world
       (Handler.Request "GET" "/index.html/" None false)) = 404.
Proof.
  apply (trailing_slash_on_a_file_is_404 (fun s => s) (fun s => s)
           (fun _ => 0) demo_server slash_world
           (Handler.Request "GET" "/index.html/" None false)).
  - left. reflexivity.
  - reflexivity.
  - vm_compute. reflexivity.
Defined.

Lemma index_html_is_served_witness :
  respond (fun s => s) (fun s => s) (fun _ => 0) demo_server slash_world
    (Handler.Request "GET" "/" None false)
  = Handler.Response 200
      (Handler.FileContent "/home/u/site/index.html" "<h1>hi</h1>").
Proof.
  apply (index_html_is_served (fun s => s) (fun s => s) (fun _ => 0)
           demo_server slash_world (Handler.Request "GET" "/" None false)
           "<h1>hi</h1>").
  - reflexivity.
  - reflexivity.
  - vm_compute. reflexivity.
  - reflexivity.
  - vm_compute. reflexivity.
Defined.
